(** * modular_boost_test/main.cpp: a one-shot timer on an event loop

    The program constructs an [io_context], a [steady_timer] that expires two
    seconds after its construction, registers a completion handler with
    [async_wait], runs the event loop and returns 0.

    The embedding has two layers.
    - The environment: the console streams, the steady clock and the part of
      the Boost.Asio interface that [main] calls.  These are not code of the
      program; they are modelled after their documented contract: a wait
      handler is never invoked from within [async_wait], it is invoked from
      [io_context::run] only, once per registered wait, with a success code no
      earlier than the expiry of the timer, and [run] returns when no work is
      left.  How long each step takes and how a wait completes is chosen by an
      oracle ([env]), so that every statement below holds for all timings and
      for both outcomes of the wait.
    - The program: [lambda_14] (the handler at main.cpp:14-20) and [main]
      (main.cpp:5-29), written in a state-and-exception monad over the
      environment, statement by statement. *)

From Stdlib Require Import ZArith NArith String Ascii List Bool Lia.
From ExtLib Require Import Structures.Monad Structures.MonadState Structures.MonadExc.
From ExtLib Require Import Data.Monads.StateMonad Data.Monads.EitherMonad.
Import ListNotations.
Import MonadNotation.
Local Open Scope monad_scope.
Local Open Scope string_scope.
Local Open Scope Z_scope.

#[local] Existing Instance Monad_stateT.

(** ** boost::system::error_code *)

(** An error category names its codes and decides which of them are
    failures ([error_category::message], [error_category::failed]). *)
Record error_category : Type := {
  cat_name : string;
  cat_message : Z -> string;
  cat_failed : Z -> bool
}.

Record error_code : Type := {
  ec_value : Z;
  ec_category : error_category
}.

(** [ec.failed()], which is what [operator bool] and [operator!] test. *)
Definition failed (ec : error_code) : bool :=
  cat_failed (ec_category ec) (ec_value ec).

(** [ec.message()]. *)
Definition message (ec : error_code) : string :=
  cat_message (ec_category ec) (ec_value ec).

(** ** Closures of the program

    A lambda expression has a closure type of its own.  The program has one
    lambda (main.cpp:14); its capture list is empty, so the closure type has
    a single value and no field. *)
Inductive closure : Type := lambda_main_14.

(** ** The environment *)

Inductive ostream : Type := cout | cerr.

Definition ostream_eqb (a b : ostream) : bool :=
  match a, b with
  | cout, cout | cerr, cerr => true
  | _, _ => false
  end.

(** What the process does, as seen from outside, one entry per library call. *)
Inductive event : Type :=
| io_context_created (io : nat)
| timer_created (io : nat) (d expiry : Z)
| wrote (s : ostream) (text : string)
| wait_registered (io : nat) (expiry : Z) (h : closure)
| run_entered (io : nat)
| handler_entered (h : closure) (ec : error_code)
| handler_returned (h : closure)
| run_returned (io : nat) (n : nat).

(** An outstanding asynchronous wait: the expiry of its timer and the
    handler to call. *)
Record op : Type := {
  op_expiry : Z;
  op_handler : closure
}.

(** The state of the process: the steady clock (in nanoseconds), the queue of
    outstanding operations of every [io_context] constructed so far (an
    [io_context] is the index of its queue), and the history of events, each
    with the time it happened at. *)
Record World : Type := {
  clock : Z;
  queues : list (list op);
  history : list (Z * event)
}.

Definition io_context : Type := nat.

Record steady_timer : Type := {
  t_io : io_context;
  t_expiry : Z
}.

(** The oracle: [delay k] is the time that passes before the [k]-th event,
    [completion k] is the result of the [k]-th wait to complete. *)
Record env : Type := {
  delay : nat -> N;
  completion : nat -> error_code
}.

(** [boost::system::system_error], the exception that carries an
    [error_code]. *)
Inductive exn : Type := system_error (ec : error_code).

(** Why a computation did not return: an exception left it, or the model of
    the event loop was not given enough steps. *)
Inductive abort : Type :=
| uncaught (e : exn)
| out_of_fuel.

Definition M : Type -> Type := stateT World (sum abort).

Definition run_from {A : Type} (m : M A) (w : World) : abort + A * World :=
  runStateT m w.

(** The process at its start, with the steady clock at [t0]. *)
Definition boot (t0 : Z) : World :=
  {| clock := t0; queues := []; history := [] |}.

(** *** Projections of the history *)

Definition events (w : World) : list event := map snd (history w).

Fixpoint written (s : ostream) (l : list event) : string :=
  match l with
  | [] => EmptyString
  | wrote s' text :: l' =>
      if ostream_eqb s s' then text ++ written s l' else written s l'
  | _ :: l' => written s l'
  end.

(** Everything written to standard output, to standard error. *)
Definition stdout (w : World) : string := written cout (events w).
Definition stderr (w : World) : string := written cerr (events w).

Definition is_entry (e : event) : bool :=
  match e with handler_entered _ _ => true | _ => false end.

Definition is_write (e : event) : bool :=
  match e with wrote _ _ => true | _ => false end.

(** How many handlers have been invoked. *)
Definition invocations (l : list event) : nat :=
  length (filter is_entry l).

(** The writes in the order they were made, whatever the stream. *)
Fixpoint output (l : list event) : list (ostream * string) :=
  match l with
  | [] => []
  | wrote s text :: l' => (s, text) :: output l'
  | _ :: l' => output l'
  end.

(** The times at which handlers were entered. *)
Definition entry_times (h : list (Z * event)) : list Z :=
  map fst (filter (fun p => is_entry (snd p)) h).

(** The line feed, and the lines of a text: a line ends at a line feed; text
    after the last line feed is a line too when it is not empty. *)
Definition LF : ascii := ascii_of_nat 10.
Definition nl : string := String LF EmptyString.

Fixpoint lines_from (cur s : string) : list string :=
  match s with
  | EmptyString =>
      match cur with EmptyString => [] | _ => [cur] end
  | String c s' =>
      if Ascii.eqb c LF then cur :: lines_from EmptyString s'
      else lines_from (cur ++ String c EmptyString) s'
  end.

Definition lines (s : string) : list string := lines_from EmptyString s.

Fixpoint has_LF (s : string) : bool :=
  match s with
  | EmptyString => false
  | String c s' => Ascii.eqb c LF || has_LF s'
  end.


(** The two messages of the handler, as they show in the output. *)
Definition success_line : string := "Timer expired! Hello from Boost.Asio!".
Definition error_prefix : string := "Timer error: ".

Definition says_success (w : World) : bool :=
  existsb (String.eqb success_line) (lines (stdout w)).

Definition says_error (w : World) : bool :=
  existsb (String.prefix error_prefix) (lines (stderr w)).

(** *** Order of events *)

(** The position of the first event that satisfies [p]. *)
Fixpoint position (p : event -> bool) (l : list event) : option nat :=
  match l with
  | [] => None
  | e :: l' =>
      if p e then Some O
      else match position p l' with
           | Some i => Some (S i)
           | None => None
           end
  end.

(** Both happen, and the first [p] before the first [q]. *)
Definition precedes (p q : event -> bool) (l : list event) : bool :=
  match position p l, position q l with
  | Some i, Some j => (i <? j)%nat
  | _, _ => false
  end.

Definition is_print (text : string) (e : event) : bool :=
  match e with
  | wrote cout t => String.eqb t text
  | _ => false
  end.

Definition is_context (e : event) : bool :=
  match e with io_context_created _ => true | _ => false end.

Definition is_arming (d : Z) (e : event) : bool :=
  match e with timer_created _ d' _ => d' =? d | _ => false end.

Definition is_registration (e : event) : bool :=
  match e with wait_registered _ _ _ => true | _ => false end.

Definition is_run (e : event) : bool :=
  match e with run_entered _ => true | _ => false end.

(** *** Primitive steps *)

Section Environment.

Variable E : env.

(** Time passes. *)
Definition tick : M unit :=
  w <- get ;;
  put {| clock := clock w + Z.of_N (delay E (length (history w)));
         queues := queues w;
         history := history w |}.

(** [steady_clock::now()]. *)
Definition now : M Z :=
  w <- get ;; ret (clock w).

Definition log (e : event) : M unit :=
  w <- get ;;
  put {| clock := clock w;
         queues := queues w;
         history := history w ++ [(clock w, e)] |}.

Definition emit (e : event) : M unit :=
  tick ;; log e.

(** [os << text]. *)
Definition write (os : ostream) (text : string) : M unit :=
  emit (wrote os text).

(** *** The queues of outstanding operations *)

Definition queue_of (io : io_context) (w : World) : list op :=
  nth io (queues w) [].

Fixpoint set_nth (i : nat) (q : list op) (qs : list (list op)) : list (list op) :=
  match i, qs with
  | _, [] => []
  | O, _ :: qs' => q :: qs'
  | S i', q0 :: qs' => q0 :: set_nth i' q qs'
  end.

Definition set_queue (io : io_context) (q : list op) : M unit :=
  w <- get ;;
  put {| clock := clock w;
         queues := set_nth io q (queues w);
         history := history w |}.

(** The timer queue keeps waits in the order of their expiry, and waits of
    equal expiry in the order of their registration. *)
Fixpoint enqueue (o : op) (q : list op) : list op :=
  match q with
  | [] => [o]
  | o' :: q' =>
      if op_expiry o <? op_expiry o' then o :: q else o' :: enqueue o q'
  end.

(** *** The Boost.Asio calls of the program *)

(** [boost::asio::io_context io;] a new context, with nothing to do. *)
Definition io_context_ctor : M io_context :=
  tick ;;
  w <- get ;;
  let io := length (queues w) in
  put {| clock := clock w;
         queues := queues w ++ [[]];
         history := history w |} ;;
  log (io_context_created io) ;;
  ret io.

(** [std::chrono::seconds(n)] as a duration of the steady clock. *)
Definition seconds (n : Z) : Z := n * 1000000000.

(** [boost::asio::steady_timer timer(io, d);] the expiry is set, relative to
    now, by the constructor. *)
Definition steady_timer_ctor (io : io_context) (d : Z) : M steady_timer :=
  tick ;;
  t <- now ;;
  log (timer_created io d (t + d)) ;;
  ret {| t_io := io; t_expiry := t + d |}.

(** [timer.async_wait(h)]: the wait is queued in the timer's context and the
    call returns; the handler is not invoked from within it. *)
Definition async_wait (timer : steady_timer) (h : closure) : M unit :=
  tick ;;
  w <- get ;;
  set_queue (t_io timer)
    (enqueue {| op_expiry := t_expiry timer; op_handler := h |}
       (queue_of (t_io timer) w)) ;;
  log (wait_registered (t_io timer) (t_expiry timer) h).

(** The clock is at least [t] when the process wakes up. *)
Definition sleep_until (t : Z) : M unit :=
  w <- get ;;
  put {| clock := Z.max (clock w) t;
         queues := queues w;
         history := history w |}.

Section Run.

(** What invoking a closure does: given by the program. *)
Variable call : closure -> error_code -> M unit.

(** The loop of [io.run()]: while a wait is outstanding, take the first one
    off the queue, let it complete as the oracle says (with a success code
    only once its timer has expired), and invoke its handler with the
    result.  An exception that leaves a handler leaves [run].  [n] counts the
    handlers invoked; [fuel] bounds their number. *)
Fixpoint run_loop (fuel : nat) (io : io_context) (n : nat) : M nat :=
  w <- get ;;
  match queue_of io w with
  | [] => ret n
  | o :: rest =>
      match fuel with
      | O => raise out_of_fuel
      | S fuel' =>
          set_queue io rest ;;
          let ec := completion E (invocations (events w)) in
          (if failed ec then ret tt else sleep_until (op_expiry o)) ;;
          emit (handler_entered (op_handler o) ec) ;;
          call (op_handler o) ec ;;
          emit (handler_returned (op_handler o)) ;;
          run_loop fuel' io (S n)
      end
  end.

(** [io.run()]. *)
Definition run (fuel : nat) (io : io_context) : M nat :=
  emit (run_entered io) ;;
  n <- run_loop fuel io 0%nat ;;
  emit (run_returned io n) ;;
  ret n.

End Run.

(** ** The program *)

(** main.cpp:14-20, the body of the lambda. *)
Definition lambda_14 (ec : error_code) : M unit :=
  if negb (failed ec) then
    write cout ("Timer expired! Hello from Boost.Asio!" ++ nl)
  else
    (write cerr "Timer error: " ;;
     write cerr (message ec) ;;
     write cerr nl).

Definition call (h : closure) (ec : error_code) : M unit :=
  match h with
  | lambda_main_14 => lambda_14 ec
  end.

(** main.cpp:5-29.  [fuel] is the bound of the model of [io.run()]; the
    program has no such parameter.  At the closing brace the destructors of
    [timer] and [io] run; they cancel or discard outstanding waits only, and
    [main] has none by then (the queue is empty in [exit_world]). *)
Definition main (fuel : nat) : M Z :=
  io <- io_context_ctor ;;
  timer <- steady_timer_ctor io (seconds 2) ;;
  write cout ("Starting timer..." ++ nl) ;;
  async_wait timer lambda_main_14 ;;
  write cout ("Waiting for timer..." ++ nl) ;;
  _ <- run call fuel io ;;
  write cout ("Done!" ++ nl) ;;
  ret 0.

End Environment.

(** ** Oracles for examples *)

(** A category in the manner of the system category: code 0 is success,
    every other code is a failure. *)
Definition example_category : error_category :=
  {| cat_name := "example";
     cat_message := fun v => if v =? 0 then "Success" else "Operation canceled";
     cat_failed := fun v => negb (v =? 0) |}.

Definition success : error_code :=
  {| ec_value := 0; ec_category := example_category |}.

Definition operation_aborted : error_code :=
  {| ec_value := 125; ec_category := example_category |}.

(** Every step takes a microsecond and the wait runs to the expiry. *)
Definition env_fires : env :=
  {| delay := fun _ => 1000%N; completion := fun _ => success |}.

(** Every step takes a microsecond and the wait is aborted. *)
Definition env_aborts : env :=
  {| delay := fun _ => 1000%N; completion := fun _ => operation_aborted |}.

(** The [k]-th step takes [k] milliseconds and the wait is aborted. *)
Definition env_aborts_slowly : env :=
  {| delay := fun k => (N.of_nat k * 1000000)%N;
     completion := fun _ => operation_aborted |}.



(** ** The course of [main] in closed form *)

Section Timeline.

Variable E : env.

(** The clock after the [n] events number [k], [k+1], ... when it shows [t]
    before the first of them. *)
Fixpoint later (t : Z) (k n : nat) : Z :=
  match n with
  | O => t
  | S n' => later (t + Z.of_N (delay E k)) (S k) n'
  end.

(** The events [l], number [k], [k+1], ..., with the times they happen at. *)
Fixpoint stamp (t : Z) (k : nat) (l : list event) : list (Z * event) :=
  match l with
  | [] => []
  | e :: l' =>
      let t' := t + Z.of_N (delay E k) in
      (t', e) :: stamp t' (S k) l'
  end.

(** What [main] does before the event loop takes over, for a timer that
    expires at [x]. *)
Definition prologue (x : Z) : list event :=
  [ io_context_created 0;
    timer_created 0 (seconds 2) x;
    wrote cout ("Starting timer..." ++ nl);
    wait_registered 0 x lambda_main_14;
    wrote cout ("Waiting for timer..." ++ nl);
    run_entered 0 ].

(** What the handler writes when it is given [ec]. *)
Definition handler_output (ec : error_code) : list event :=
  if failed ec then
    [ wrote cerr "Timer error: "; wrote cerr (message ec); wrote cerr nl ]
  else
    [ wrote cout ("Timer expired! Hello from Boost.Asio!" ++ nl) ].

(** One invocation of the handler. *)
Definition invocation (ec : error_code) : list event :=
  handler_entered lambda_main_14 ec :: handler_output ec
    ++ [ handler_returned lambda_main_14 ].

(** What happens once the wait is over. *)
Definition epilogue (ec : error_code) : list event :=
  invocation ec ++ [ run_returned 0 1; wrote cout ("Done!" ++ nl) ].

(** The result of the program's only wait. *)
Definition outcome : error_code := completion E 0.

Variable t0 : Z.

(** When the constructor of the timer reads the clock, and the expiry. *)
Definition construction_time : Z := later t0 0 2.
Definition expiry_time : Z := construction_time + seconds 2.

(** When the wait is over. *)
Definition wake_time : Z :=
  if failed outcome then later t0 0 6
  else Z.max (later t0 0 6) expiry_time.

Definition exit_world : World :=
  {| clock := later wake_time 6 (length (epilogue outcome));
     queues := [[]];
     history := stamp t0 0 (prologue expiry_time)
                ++ stamp wake_time 6 (epilogue outcome) |}.

End Timeline.

(** ** The order of the steps of [main]

    [order_as_specified]: print "starting", arm the timer, register the
    handler, print "waiting", run the loop.
    [order_in_program]: create the context, arm the timer, print "starting",
    register the handler, print "waiting", run the loop. *)
Definition order_as_specified (l : list event) : bool :=
  precedes (is_print ("Starting timer..." ++ nl)) (is_arming (seconds 2)) l
  && precedes (is_arming (seconds 2)) is_registration l
  && precedes is_registration (is_print ("Waiting for timer..." ++ nl)) l
  && precedes (is_print ("Waiting for timer..." ++ nl)) is_run l.

Definition order_in_program (l : list event) : bool :=
  precedes is_context (is_arming (seconds 2)) l
  && precedes (is_arming (seconds 2)) (is_print ("Starting timer..." ++ nl)) l
  && precedes (is_print ("Starting timer..." ++ nl)) is_registration l
  && precedes is_registration (is_print ("Waiting for timer..." ++ nl)) l
  && precedes (is_print ("Waiting for timer..." ++ nl)) is_run l.

(** ** Lemmas *)

Ltac symex :=
  cbv -[Z.add Z.max Z.of_N Z.mul Z.le failed message delay completion
        String.append].

(** [main] returns 0 whenever the loop is given fuel for one handler, and
    leaves the process in [exit_world]. *)
Lemma main_exit (E : env) (t0 : Z) (fuel : nat) :
  run_from (main E (S fuel)) (boot t0) = inr (0, exit_world E t0).
Proof.
  unfold run_from, main, exit_world, wake_time, epilogue, invocation,
    handler_output, outcome.
  destruct fuel as [|fuel]; symex;
    destruct (failed (completion E 0%nat)); symex; reflexivity.
Qed.

Lemma stamp_events (E : env) (l : list event) :
  forall t k, map snd (stamp E t k l) = l.
Proof.
  induction l as [|e l IH]; intros t k; simpl; [reflexivity|].
  now rewrite IH.
Qed.

Lemma later_ge (E : env) (n : nat) :
  forall t k, t <= later E t k n.
Proof.
  induction n as [|n IH]; intros t k; simpl; [lia|].
  specialize (IH (t + Z.of_N (delay E k)) (S k)). lia.
Qed.

Lemma exit_events (E : env) (t0 : Z) :
  events (exit_world E t0)
  = (prologue (expiry_time E t0) ++ epilogue (outcome E))%list.
Proof.
  cbv beta iota delta [events exit_world history].
  now rewrite map_app, !stamp_events.
Qed.

Lemma append_empty (s : string) : s ++ EmptyString = s.
Proof. induction s as [|c s IH]; simpl; [reflexivity|now rewrite IH]. Qed.

Lemma append_assoc (a b c : string) : (a ++ b) ++ c = a ++ (b ++ c).
Proof. induction a as [|x a IH]; simpl; [reflexivity|now rewrite IH]. Qed.

Lemma prefix_append (a b : string) : String.prefix a (a ++ b) = true.
Proof.
  induction a as [|x a IH]; simpl; [now destruct b|].
  destruct (ascii_dec x x) as [_|N]; [exact IH|now elim N].
Qed.

(** The first line of a text that ends in a line feed starts with what was
    read of it so far. *)
Lemma lines_from_head (s : string) :
  forall cur, exists more rest,
    lines_from cur (s ++ nl) = (cur ++ more) :: rest.
Proof.
  induction s as [|c s IH]; intros cur; simpl.
  - exists EmptyString, []. now rewrite append_empty.
  - destruct (Ascii.eqb c LF).
    + exists EmptyString. eexists. now rewrite append_empty.
    + destruct (IH (cur ++ String c EmptyString)) as (more & rest & ->).
      exists (String c more), rest. now rewrite append_assoc.
Qed.

(** A text without a line feed, followed by one, is one line. *)
Lemma lines_from_single (s : string) :
  forall cur, has_LF s = false -> lines_from cur (s ++ nl) = [cur ++ s].
Proof.
  induction s as [|c s IH]; intros cur H; simpl in *.
  - now rewrite append_empty.
  - destruct (Ascii.eqb c LF); [discriminate|].
    rewrite (IH _ H). now rewrite append_assoc.
Qed.

(** What each call of the program does to an arbitrary state. *)

Lemma async_wait_spec (E : env) (timer : steady_timer) (h : closure) (w : World) :
  exists w',
    run_from (async_wait E timer h) w = inr (tt, w')
    /\ events w'
       = (events w ++ [wait_registered (t_io timer) (t_expiry timer) h])%list.
Proof.
  eexists. split; [reflexivity|].
  cbv beta iota delta [events history]. now rewrite map_app.
Qed.

Lemma lambda_14_spec (E : env) (ec : error_code) (w : World) :
  exists w',
    run_from (lambda_14 E ec) w = inr (tt, w')
    /\ queues w' = queues w
    /\ clock w <= clock w'
    /\ events w' = (events w ++ handler_output ec)%list.
Proof.
  unfold lambda_14, handler_output, write.
  destruct (failed ec); simpl negb; cbv iota.
  - eexists. split; [reflexivity|]. split; [reflexivity|]. split.
    + cbv beta iota delta [clock]. lia.
    + cbv beta iota delta [events history].
      rewrite !map_app, <- !app_assoc. reflexivity.
  - eexists. split; [reflexivity|]. split; [reflexivity|]. split.
    + cbv beta iota delta [clock]. lia.
    + cbv beta iota delta [events history]. now rewrite map_app.
Qed.

Lemma written_app (s : ostream) (l1 l2 : list event) :
  written s (l1 ++ l2)%list = written s l1 ++ written s l2.
Proof.
  induction l1 as [|e l1 IH]; simpl; [reflexivity|].
  destruct e; try exact IH.
  destruct (ostream_eqb s s0); [|exact IH].
  now rewrite IH, append_assoc.
Qed.


(** ** The output of [main] *)

Lemma exit_stdout (E : env) (t0 : Z) :
  stdout (exit_world E t0)
  = if failed (outcome E)
    then "Starting timer..." ++ nl ++ "Waiting for timer..." ++ nl
         ++ "Done!" ++ nl
    else "Starting timer..." ++ nl ++ "Waiting for timer..." ++ nl
         ++ success_line ++ nl ++ "Done!" ++ nl.
Proof.
  unfold stdout. rewrite exit_events.
  unfold epilogue, invocation, handler_output.
  destruct (failed (outcome E)); reflexivity.
Qed.

Lemma exit_stderr (E : env) (t0 : Z) :
  stderr (exit_world E t0)
  = if failed (outcome E)
    then error_prefix ++ message (outcome E) ++ nl
    else EmptyString.
Proof.
  unfold stderr. rewrite exit_events.
  unfold epilogue, invocation, handler_output.
  destruct (failed (outcome E)); reflexivity.
Qed.

(** ** Properties of the program *)

(** C1.  On the success path (the wait completes without error) the lines on
    standard output are exactly "Starting timer...", "Waiting for timer...",
    "Timer expired! Hello from Boost.Asio!" and "Done!", in that order. *)
Theorem success_path_stdout (E : env) (t0 : Z) (fuel : nat) :
  failed (completion E 0) = false ->
  exists w,
    run_from (main E (S fuel)) (boot t0) = inr (0, w)
    /\ lines (stdout w)
       = [ "Starting timer..."; "Waiting for timer...";
           "Timer expired! Hello from Boost.Asio!"; "Done!" ].
Proof.
  intros Hec. exists (exit_world E t0). split; [apply main_exit|].
  rewrite exit_stdout. unfold outcome. rewrite Hec. reflexivity.
Qed.

Lemma success_path_stdout_fires :
  failed (completion env_fires 0) = false
  /\ exists w,
       run_from (main env_fires 1) (boot 0) = inr (0, w)
       /\ lines (stdout w)
          = [ "Starting timer..."; "Waiting for timer...";
              "Timer expired! Hello from Boost.Asio!"; "Done!" ].
Proof.
  split; [reflexivity|].
  apply (success_path_stdout env_fires 0 0%nat). reflexivity.
Defined.

(** C2.  In every run the completion handler is invoked exactly once, and
    that invocation, from entry to return, lies between the entry to
    [io.run()] and its return: no handler is entered before the loop runs,
    none after it has returned, and no wait is outstanding when [main]
    returns. *)
Theorem handler_invoked_once_within_run (E : env) (t0 : Z) (fuel : nat) :
  exists w before body after ec,
    run_from (main E (S fuel)) (boot t0) = inr (0, w)
    /\ events w
       = (before
          ++ run_entered 0
             :: (handler_entered lambda_main_14 ec :: body
                 ++ [handler_returned lambda_main_14])
          ++ run_returned 0 1 :: after)%list
    /\ invocations before = 0%nat
    /\ invocations body = 0%nat
    /\ invocations after = 0%nat
    /\ invocations (events w) = 1%nat
    /\ queues w = [[]].
Proof.
  exists (exit_world E t0).
  exists [ io_context_created 0;
           timer_created 0 (seconds 2) (expiry_time E t0);
           wrote cout ("Starting timer..." ++ nl);
           wait_registered 0 (expiry_time E t0) lambda_main_14;
           wrote cout ("Waiting for timer..." ++ nl) ].
  exists (handler_output (outcome E)).
  exists [ wrote cout ("Done!" ++ nl) ].
  exists (outcome E).
  split; [apply main_exit|].
  rewrite exit_events.
  unfold prologue, epilogue, invocation, handler_output.
  destruct (failed (outcome E)); repeat split; reflexivity.
Qed.

(** C3.  When the wait fails, standard error receives the text
    "Timer error: <description>" followed by a line feed, which is exactly
    one line when the description has no line feed in it, and it receives
    nothing on any other run; the handler returns normally for every error
    code (no exception leaves it); [main] still prints "Done!" as its last
    line and returns 0. *)
Theorem error_reported_and_contained (E : env) (t0 : Z) (fuel : nat) :
  exists w,
    run_from (main E (S fuel)) (boot t0) = inr (0, w)
    /\ stderr w
       = (if failed (completion E 0)
          then "Timer error: " ++ message (completion E 0) ++ nl
          else EmptyString)
    /\ (failed (completion E 0) = true ->
        has_LF (message (completion E 0)) = false ->
        lines (stderr w) = [ "Timer error: " ++ message (completion E 0) ])
    /\ (forall ec w0, exists w1,
          run_from (call E lambda_main_14 ec) w0 = inr (tt, w1))
    /\ last (lines (stdout w)) EmptyString = "Done!".
Proof.
  exists (exit_world E t0). split; [apply main_exit|].
  split; [apply exit_stderr|]. split; [|split].
  - intros Hec Hmsg. rewrite exit_stderr. unfold outcome. rewrite Hec.
    change (lines (error_prefix ++ message (completion E 0%nat) ++ nl))
      with (lines_from error_prefix (message (completion E 0%nat) ++ nl)).
    now rewrite lines_from_single.
  - intros ec w0. destruct (lambda_14_spec E ec w0) as (w1 & H & _).
    exists w1. exact H.
  - rewrite exit_stdout. destruct (failed (outcome E)); reflexivity.
Qed.

Lemma error_reported_and_contained_aborted :
  exists w,
    run_from (main env_aborts 1) (boot 0) = inr (0, w)
    /\ stderr w = "Timer error: Operation canceled" ++ nl
    /\ lines (stderr w) = [ "Timer error: Operation canceled" ]
    /\ last (lines (stdout w)) EmptyString = "Done!".
Proof.
  destruct (error_reported_and_contained env_aborts 0 0%nat)
    as (w & Hrun & Herr & Hone & _ & Hdone).
  exists w. split; [exact Hrun|]. split; [exact Herr|].
  split; [|exact Hdone]. apply Hone; reflexivity.
Defined.

(** C4.  The exit code is 0 in every run, whatever the timing and whatever
    the result of the wait: [main] returns, and what it returns is 0. *)
Theorem exit_code_zero (E : env) (t0 : Z) (fuel : nat) :
  exists w, run_from (main E (S fuel)) (boot t0) = inr (0, w).
Proof.
  exists (exit_world E t0). apply main_exit.
Qed.

(** C5, as it is stated, fails: in the run where every step takes a
    microsecond and the timer fires, the timer is armed (its constructor has
    set the expiry) before "Starting timer..." is printed, not after. *)
Lemma specified_order_fails :
  exists w,
    run_from (main env_fires 1) (boot 0) = inr (0, w)
    /\ order_as_specified (events w) = false
    /\ precedes (is_arming (seconds 2)) (is_print ("Starting timer..." ++ nl))
         (events w) = true.
Proof.
  exists (exit_world env_fires 0).
  split; [apply main_exit|]. split; vm_compute; reflexivity.
Qed.

(** C5, amended.  In every run [main] performs these steps in this order:
    it creates the event-loop context (the first of the process, with no
    work queued), arms the timer against it with an expiry two seconds after
    the constructor reads the clock, prints "Starting timer...", registers
    the completion handler on that timer, prints "Waiting for timer...", and
    enters the event loop, which returns with no work left. *)
Theorem steps_in_program_order (E : env) (t0 : Z) (fuel : nat) :
  exists w x rest,
    run_from (main E (S fuel)) (boot t0) = inr (0, w)
    /\ events w
       = ([ io_context_created 0;
            timer_created 0 (seconds 2) x;
            wrote cout ("Starting timer..." ++ nl);
            wait_registered 0 x lambda_main_14;
            wrote cout ("Waiting for timer..." ++ nl);
            run_entered 0 ] ++ rest)%list
    /\ In (run_returned 0 1) rest
    /\ queues w = [[]]
    /\ order_in_program (events w) = true.
Proof.
  exists (exit_world E t0), (expiry_time E t0), (epilogue (outcome E)).
  split; [apply main_exit|].
  rewrite exit_events. split; [reflexivity|]. split; [|split].
  - unfold epilogue. apply in_or_app. right. left. reflexivity.
  - reflexivity.
  - unfold prologue. vm_compute. reflexivity.
Qed.

(** C6.  On the success path the handler is entered no earlier than two
    seconds after the start of the program: the timer is constructed at or
    after the start, its expiry is its construction time plus two seconds,
    and the handler is entered at or after the expiry. *)
Theorem success_not_before_two_seconds (E : env) (t0 : Z) (fuel : nat) :
  failed (completion E 0) = false ->
  exists w tc th,
    run_from (main E (S fuel)) (boot t0) = inr (0, w)
    /\ In (tc, timer_created 0 (seconds 2) (tc + seconds 2)) (history w)
    /\ entry_times (history w) = [th]
    /\ t0 <= tc
    /\ tc + seconds 2 <= th
    /\ t0 + 2000000000 <= th.
Proof.
  intros Hec.
  exists (exit_world E t0), (construction_time E t0).
  exists (wake_time E t0 + Z.of_N (delay E 6)).
  split; [apply main_exit|].
  assert (Htc : t0 <= construction_time E t0) by apply later_ge.
  assert (Hth : construction_time E t0 + seconds 2 <= wake_time E t0).
  { unfold wake_time, outcome. rewrite Hec. unfold expiry_time. lia. }
  unfold seconds in *.
  repeat split; try lia.
  - cbv beta iota delta [exit_world history]. apply in_or_app. left.
    right. left. reflexivity.
  - cbv beta iota delta [exit_world history].
    unfold epilogue, invocation, handler_output, outcome. rewrite Hec.
    reflexivity.
Qed.

Lemma success_not_before_two_seconds_fires :
  failed (completion env_fires 0) = false
  /\ exists w tc th,
       run_from (main env_fires 1) (boot 0) = inr (0, w)
       /\ In (tc, timer_created 0 (seconds 2) (tc + seconds 2)) (history w)
       /\ entry_times (history w) = [th]
       /\ 0 <= tc
       /\ tc + seconds 2 <= th
       /\ 0 + 2000000000 <= th.
Proof.
  split; [reflexivity|].
  apply (success_not_before_two_seconds env_fires 0 0%nat). reflexivity.
Defined.

(** C7.  For every error code it is given and in every state, the handler
    returns normally, leaves the queues of outstanding operations as they
    were (it registers no wait and removes none), and adds to the history
    nothing but writes to the console, at least one; the closure it is
    called through has no field to change.  Only the clock moves on. *)
Theorem handler_only_writes (E : env) (ec : error_code) (w : World) :
  exists w' out,
    run_from (call E lambda_main_14 ec) w = inr (tt, w')
    /\ queues w' = queues w
    /\ events w' = (events w ++ out)%list
    /\ out <> []
    /\ forallb is_write out = true
    /\ (forall h : closure, h = lambda_main_14).
Proof.
  destruct (lambda_14_spec E ec w) as (w' & Hrun & Hq & _ & Hev).
  exists w', (handler_output ec).
  split; [exact Hrun|]. split; [exact Hq|]. split; [exact Hev|].
  unfold handler_output.
  destruct (failed ec); (split; [discriminate|]); split;
    try reflexivity; intros []; reflexivity.
Qed.

(** C8.  Two runs whose waits end the same way (both succeed, or both fail
    with the same description) write the same texts to the same streams in
    the same order, whatever their timing and their start time.  [main] has
    no parameter and the model of the process no input to read. *)
Theorem runs_with_same_outcome_agree (E1 E2 : env) (t1 t2 : Z) (f1 f2 : nat) :
  failed (completion E1 0) = failed (completion E2 0) ->
  (failed (completion E1 0) = true ->
   message (completion E1 0) = message (completion E2 0)) ->
  exists w1 w2,
    run_from (main E1 (S f1)) (boot t1) = inr (0, w1)
    /\ run_from (main E2 (S f2)) (boot t2) = inr (0, w2)
    /\ output (events w1) = output (events w2)
    /\ stdout w1 = stdout w2
    /\ stderr w1 = stderr w2.
Proof.
  intros Hf Hm.
  exists (exit_world E1 t1), (exit_world E2 t2).
  split; [apply main_exit|]. split; [apply main_exit|].
  rewrite !exit_stdout, !exit_stderr, !exit_events.
  unfold prologue, epilogue, invocation, handler_output, outcome.
  rewrite <- Hf.
  destruct (failed (completion E1 0%nat)).
  - rewrite <- (Hm eq_refl). repeat split; reflexivity.
  - repeat split; reflexivity.
Qed.

Lemma runs_with_same_outcome_agree_aborted :
  failed (completion env_aborts 0) = failed (completion env_aborts_slowly 0)
  /\ message (completion env_aborts 0)
     = message (completion env_aborts_slowly 0)
  /\ exists w1 w2,
       run_from (main env_aborts 1) (boot 0) = inr (0, w1)
       /\ run_from (main env_aborts_slowly 3) (boot 77) = inr (0, w2)
       /\ output (events w1) = output (events w2)
       /\ stdout w1 = stdout w2
       /\ stderr w1 = stderr w2.
Proof.
  split; [reflexivity|]. split; [reflexivity|].
  apply (runs_with_same_outcome_agree env_aborts env_aborts_slowly 0 77 0 2).
  - reflexivity.
  - intros _. reflexivity.
Defined.

(** C9.  In every run exactly one of the two messages of the handler is
    emitted: the success line is among the lines of standard output exactly
    when the wait did not fail, and a line that starts with "Timer error: "
    is among the lines of standard error exactly when it did. *)
Theorem exactly_one_handler_message (E : env) (t0 : Z) (fuel : nat) :
  exists w,
    run_from (main E (S fuel)) (boot t0) = inr (0, w)
    /\ says_success w = negb (failed (completion E 0))
    /\ says_error w = failed (completion E 0)
    /\ xorb (says_success w) (says_error w) = true.
Proof.
  exists (exit_world E t0). split; [apply main_exit|].
  unfold says_success, says_error. rewrite exit_stdout, exit_stderr.
  unfold outcome.
  destruct (failed (completion E 0%nat)).
  - change (lines (error_prefix ++ message (completion E 0%nat) ++ nl))
      with (lines_from error_prefix (message (completion E 0%nat) ++ nl)).
    destruct (lines_from_head (message (completion E 0%nat)) error_prefix)
      as (more & rest & ->).
    cbv beta iota delta [existsb]. rewrite prefix_append.
    repeat split; reflexivity.
  - repeat split; reflexivity.
Qed.

(** C10.  [async_wait] returns without having invoked a handler, in every
    state; and in every run of [main] everything before the entry to
    [io.run()] is the work of [main] itself, whose writes there are
    "Starting timer..." and "Waiting for timer..." in this order, while
    the handler is entered, writes and returns between the entry to
    [io.run()] and its return. *)
Theorem handler_runs_inside_run_only (E : env) (t0 : Z) (fuel : nat) :
  (forall timer h w0, exists w1,
      run_from (async_wait E timer h) w0 = inr (tt, w1)
      /\ invocations (events w1) = invocations (events w0))
  /\ exists w before inside after,
       run_from (main E (S fuel)) (boot t0) = inr (0, w)
       /\ events w
          = (before ++ run_entered 0 :: inside
             ++ run_returned 0 1 :: after)%list
       /\ invocations before = 0%nat
       /\ output before
          = [ (cout, "Starting timer..." ++ nl);
              (cout, "Waiting for timer..." ++ nl) ]
       /\ invocations inside = 1%nat
       /\ hd_error inside
          = Some (handler_entered lambda_main_14 (completion E 0))
       /\ last inside (run_entered 0) = handler_returned lambda_main_14
       /\ output after = [ (cout, "Done!" ++ nl) ].
Proof.
  split.
  - intros timer h w0.
    destruct (async_wait_spec E timer h w0) as (w1 & Hrun & Hev).
    exists w1. split; [exact Hrun|].
    rewrite Hev. unfold invocations.
    rewrite filter_app, length_app. simpl. lia.
  - exists (exit_world E t0).
    exists [ io_context_created 0;
             timer_created 0 (seconds 2) (expiry_time E t0);
             wrote cout ("Starting timer..." ++ nl);
             wait_registered 0 (expiry_time E t0) lambda_main_14;
             wrote cout ("Waiting for timer..." ++ nl) ].
    exists (invocation (outcome E)), [ wrote cout ("Done!" ++ nl) ].
    split; [apply main_exit|].
    rewrite exit_events.
    unfold prologue, epilogue, invocation, handler_output, outcome.
    destruct (failed (completion E 0%nat)); repeat split; reflexivity.
Qed.

(** ** Further properties of the program *)

(** X1.  On the error path (the wait completes with a failure) the lines on
    standard output are exactly "Starting timer...", "Waiting for timer..."
    and "Done!", in that order, whatever the error code and its description:
    the handler writes nothing to standard output then. *)
Theorem failure_path_stdout (E : env) (t0 : Z) (fuel : nat) :
  failed (completion E 0) = true ->
  exists w,
    run_from (main E (S fuel)) (boot t0) = inr (0, w)
    /\ lines (stdout w)
       = [ "Starting timer..."; "Waiting for timer..."; "Done!" ].
Proof.
  intros Hec. exists (exit_world E t0). split; [apply main_exit|].
  rewrite exit_stdout. unfold outcome. rewrite Hec. reflexivity.
Qed.

Lemma failure_path_stdout_aborted :
  failed (completion env_aborts 0) = true
  /\ exists w,
       run_from (main env_aborts 1) (boot 0) = inr (0, w)
       /\ lines (stdout w)
          = [ "Starting timer..."; "Waiting for timer..."; "Done!" ].
Proof.
  split; [reflexivity|].
  apply (failure_path_stdout env_aborts 0 0%nat). reflexivity.
Defined.

(** X2.  Called in any state, whatever has been written before, the handler
    appends to one stream and leaves the other as it was: with a code that is
    not a failure it appends the success line to standard output; with a
    failure it appends "Timer error: ", the description and a line feed to
    standard error. *)
Theorem handler_appends_to_one_stream (E : env) (ec : error_code) (w : World) :
  exists w',
    run_from (call E lambda_main_14 ec) w = inr (tt, w')
    /\ stdout w'
       = stdout w
         ++ (if failed ec then EmptyString
             else "Timer expired! Hello from Boost.Asio!" ++ nl)
    /\ stderr w'
       = stderr w
         ++ (if failed ec then "Timer error: " ++ message ec ++ nl
             else EmptyString).
Proof.
  destruct (lambda_14_spec E ec w) as (w' & Hrun & _ & _ & Hev).
  exists w'. split; [exact Hrun|].
  unfold stdout, stderr. rewrite Hev, !written_app.
  unfold handler_output. destruct (failed ec); split; reflexivity.
Qed.

(** X3.  The calls of a run of [main] are these and no others, in this
    order: one context, one timer on it, "Starting timer...", one wait on
    that timer (with the expiry the constructor set, which is at least two
    seconds after the start), "Waiting for timer...", one run of the loop
    with one invocation of the handler, whose writes are those of the
    outcome, and "Done!".  [main] constructs no second timer, registers no
    second wait and does not run the loop again. *)
Theorem main_calls (E : env) (t0 : Z) (fuel : nat) :
  exists w x,
    run_from (main E (S fuel)) (boot t0) = inr (0, w)
    /\ t0 + 2000000000 <= x
    /\ events w
       = ([ io_context_created 0;
            timer_created 0 (seconds 2) x;
            wrote cout ("Starting timer..." ++ nl);
            wait_registered 0 x lambda_main_14;
            wrote cout ("Waiting for timer..." ++ nl);
            run_entered 0;
            handler_entered lambda_main_14 (completion E 0) ]
          ++ (if failed (completion E 0)
              then [ wrote cerr "Timer error: ";
                     wrote cerr (message (completion E 0));
                     wrote cerr nl ]
              else [ wrote cout ("Timer expired! Hello from Boost.Asio!" ++ nl) ])
          ++ [ handler_returned lambda_main_14;
               run_returned 0 1;
               wrote cout ("Done!" ++ nl) ])%list.
Proof.
  exists (exit_world E t0), (expiry_time E t0).
  split; [apply main_exit|]. split.
  - pose proof (later_ge E 2 t0 0) as H.
    unfold expiry_time, construction_time, seconds. lia.
  - rewrite exit_events.
    unfold prologue, epilogue, invocation, handler_output, outcome.
    destruct (failed (completion E 0%nat)); reflexivity.
Qed.

(** X4.  On the success path the program does not finish before the two
    seconds are over: the last thing it does is to write "Done!", and it
    does so two seconds after its start or later. *)
Theorem success_done_not_before_two_seconds (E : env) (t0 : Z) (fuel : nat) :
  failed (completion E 0) = false ->
  exists w,
    run_from (main E (S fuel)) (boot t0) = inr (0, w)
    /\ last (history w) (t0, run_entered 0)
       = (clock w, wrote cout ("Done!" ++ nl))
    /\ t0 + 2000000000 <= clock w.
Proof.
  intros Hec. exists (exit_world E t0). split; [apply main_exit|].
  assert (Hx : t0 + 2000000000 <= wake_time E t0).
  { pose proof (later_ge E 2 t0 0) as H.
    unfold wake_time, outcome. rewrite Hec.
    unfold expiry_time, construction_time, seconds. lia. }
  cbv beta iota delta [exit_world history clock].
  unfold epilogue, invocation, handler_output, outcome. rewrite Hec.
  split.
  - cbv -[Z.add Z.max Z.of_N Z.mul wake_time delay String.append].
    reflexivity.
  - pose proof (later_ge E 5 (wake_time E t0) 6) as H.
    change (length _) with 5%nat. lia.
Qed.

Lemma success_done_not_before_two_seconds_fires :
  failed (completion env_fires 0) = false
  /\ exists w,
       run_from (main env_fires 1) (boot 0) = inr (0, w)
       /\ last (history w) (0, run_entered 0)
          = (clock w, wrote cout ("Done!" ++ nl))
       /\ 0 + 2000000000 <= clock w.
Proof.
  split; [reflexivity|].
  apply (success_done_not_before_two_seconds env_fires 0 0%nat). reflexivity.
Defined.


